(** * Data-quality checks of [data_quality_interactive.ipynb]

    A shallow embedding of the notebook's per-column checks

      - [check_completeness]
      - [validate_varchar_detailed]
      - [validate_bigint_detailed]
      - [your_original_style]

    and of the pandas / NumPy operations they call.

    Modelling decisions.

    - A column ([pd.Series]) is either an object column, the list of the
      Python scalars it holds ([None], floats with NaN and the infinities,
      ints of any size, strings), or a float64 column, a list of floats.
      These are the two dtypes the notebook's own test columns have, and
      the ones a column with missing values gets.  On an object column
      pandas compares element by element with Python's exact int/float
      comparison; on a float64 column NumPy compares in float64, after
      converting the other operand.  Index labels play no part: every
      Series the checks combine is derived from the same input.
    - The lengths [.str.len()] returns come with their dtype (int64,
      float64 or object), which decides how they are compared with
      [max_length].
    - binary64 arithmetic is the kernel's ([PrimFloat]); a count (an
      [np.int64]) is an integer [Z].
    - An exception is a value of [exn]; code that can raise lives in the
      [except] monad.
    - [print] calls are not modelled. *)

From Stdlib Require Import ZArith List String Ascii Bool Lia Permutation.
From Stdlib Require Import Floats DecimalString.
Import ListNotations.

Local Open Scope Z_scope.

(** ** Python values and exceptions *)

Inductive value : Type :=
| PyNone
| PyFloat (f : float)
| PyInt (z : Z)
| PyStr (s : string).

Inductive exn : Type :=
| AttributeError
| TypeError
| ValueError
| OverflowError
| UnsupportedTypeError.

Inductive except (A : Type) : Type :=
| Ok (a : A)
| Raise (e : exn).

Arguments Ok {A} a.
Arguments Raise {A} e.

Definition bind {A B : Type} (m : except A) (k : A -> except B) : except B :=
  match m with
  | Ok a => k a
  | Raise e => Raise e
  end.

Declare Scope except_scope.
Delimit Scope except_scope with except.
Notation "x <- m ;; k" := (bind m (fun x => k))
  (at level 100, m at next level, right associativity) : except_scope.
Local Open Scope except_scope.

Fixpoint mapM {A B : Type} (f : A -> except B) (l : list A) : except (list B) :=
  match l with
  | [] => Ok []
  | x :: l' =>
      y <- f x ;;
      ys <- mapM f l' ;;
      Ok (y :: ys)
  end.

(** A Python number as the result dictionaries hold it: the literal [0] of
    the guarded branches stays an int, a computed rate is a float. *)
Inductive pynum : Type :=
| PyI (z : Z)
| PyF (f : float).

(** ** binary64 helpers *)

Module Float64.

(** Conversion of an integer, rounding to nearest even, as Python's
    [float(int)] and NumPy's int-to-float64 cast do. *)
Definition of_Z (z : Z) : float :=
  SF2Prim (binary_normalize prec emax z 0 false).

(** The exact order between a float and an integer ([None] for NaN). *)
Definition compare_Z (f : float) (z : Z) : option comparison :=
  match Prim2SF f with
  | S754_nan => None
  | S754_infinity s => Some (if s then Lt else Gt)
  | S754_zero _ => Some (0 ?= z)
  | S754_finite s m e =>
      let n := if s then Z.neg m else Z.pos m in
      if 0 <=? e then Some (n * 2 ^ e ?= z)
      else Some (n ?= z * 2 ^ (- e))
  end.

(** [float.is_integer]: finite with no fractional part. *)
Definition is_integer (f : float) : bool :=
  match Prim2SF f with
  | S754_nan => false
  | S754_infinity _ => false
  | S754_zero _ => true
  | S754_finite _ m e =>
      if 0 <=? e then true else Z.pos m mod 2 ^ (- e) =? 0
  end.

Definition two52 : float := 4503599627370496%float.

(** [np.rint]: the nearest integer, ties to even.  Below 2^52 in
    magnitude adding and subtracting 2^52 rounds exactly that way; from
    2^52 on every float is an integer. *)
Definition rint (x : float) : float :=
  if (abs x <? two52)%float then
    if (x <? 0)%float then (- ((- x + two52) - two52))%float
    else ((x + two52) - two52)%float
  else x.


End Float64.

(** ** The NumPy scalar operations the rates use *)

(** [a / b] on two [np.int64] (or an [np.int64] and an int): both become
    float64 and are divided; a zero divisor gives NaN or an infinity and a
    warning, never [ZeroDivisionError]. *)
Definition np_true_divide (a b : Z) : float :=
  (Float64.of_Z a / Float64.of_Z b)%float.

(** [round(x, ndigits)] on an [np.float64], for [ndigits > 0]: multiply by
    [10 ** ndigits], [rint], divide. *)
Definition np_round (x : float) (ndigits : Z) : float :=
  let f := Float64.of_Z (10 ^ ndigits) in
  (Float64.rint (x * f) / f)%float.

(** ** The pandas operations the checks use *)

Definition Series (A : Type) : Type := list A.

(** An input column with its dtype. *)
Inductive column : Type :=
| ObjectColumn (objects : list value)
| Float64Column (floats : list float).

(** The values a column holds, as iterating over it yields them. *)
Definition cells (data : column) : list value :=
  match data with
  | ObjectColumn objects => objects
  | Float64Column floats => map PyFloat floats
  end.

(** [len(data)] *)
Definition len (data : column) : Z := Z.of_nat (List.length (cells data)).

(** [pd.isna] on a scalar. *)
Definition pd_isna (x : value) : bool :=
  match x with
  | PyNone => true
  | PyFloat f => is_nan f
  | PyInt _ => false
  | PyStr _ => false
  end.

Definition pd_notna (x : value) : bool := negb (pd_isna x).

(** [data.isna()] *)
Definition isna (data : column) : Series bool := map pd_isna (cells data).

(** [~s] *)
Definition invert (s : Series bool) : Series bool := map negb s.

(** [s.sum()] on a boolean Series. *)
Fixpoint sum (s : Series bool) : Z :=
  match s with
  | [] => 0
  | b :: s' => (if b then 1 else 0) + sum s'
  end.

Fixpoint zip_with {A B C : Type} (f : A -> B -> C)
  (s : Series A) (t : Series B) : Series C :=
  match s, t with
  | a :: s', b :: t' => f a b :: zip_with f s' t'
  | _, _ => []
  end.

(** [s & t] *)
Definition and_ (s t : Series bool) : Series bool := zip_with andb s t.

(** [s.where(cond, np.nan)] on a boolean Series: the entry where [cond]
    holds, NaN ([None]) elsewhere. *)
Definition where_nan (s cond : Series bool) : Series (option bool) :=
  zip_with (fun b c : bool => if c then Some b else None) s cond.

(** [s == True] and [s == False] on a Series of booleans and NaN. *)
Definition eq_bool (s : Series (option bool)) (b : bool) : Series bool :=
  map (fun v => match v with
                | Some b' => Bool.eqb b' b
                | None => false
                end) s.

(** What [lib.infer_dtype(values, skipna=True)] answers. *)
Inductive inferred : Type :=
| Iempty
| Istring
| Imixed
| Imixed_integer
| Iinteger
| Ifloating
| Imixed_integer_float.

Definition is_int (x : value) : bool :=
  match x with PyInt _ => true | _ => false end.
Definition is_float (x : value) : bool :=
  match x with PyFloat _ => true | _ => false end.
Definition is_str (x : value) : bool :=
  match x with PyStr _ => true | _ => false end.

(** The first value that is not null decides which family is tried; a
    column that is not wholly of that family is ["mixed-integer"] when it
    holds an int and ["mixed"] otherwise.  (pandas tells ["integer-na"]
    from ["mixed-integer-float"]; both are one constructor here.) *)
Definition infer_dtype (values : list value) : inferred :=
  let mixed := if existsb is_int values then Imixed_integer else Imixed in
  match find pd_notna values with
  | None => Iempty
  | Some (PyInt _) =>
      if forallb (fun x => pd_isna x || is_int x) values then Iinteger
      else if forallb (fun x => pd_isna x || is_int x || is_float x) values
           then Imixed_integer_float
           else Imixed_integer
  | Some (PyFloat _) =>
      if forallb is_float values then Ifloating
      else if forallb (fun x => pd_isna x || is_int x || is_float x) values
           then Imixed_integer_float
           else mixed
  | Some (PyStr _) =>
      if forallb (fun x => pd_isna x || is_str x) values then Istring
      else mixed
  | Some PyNone => Iempty
  end.

(** The check behind [data.str]: only these inferred kinds get the
    accessor, any other raises [AttributeError] ("Can only use .str
    accessor with string values!").  A float64 column is inferred
    ["floating"] from its dtype alone. *)
Definition str_accessor (data : column) : except (list value) :=
  match data with
  | Float64Column _ => Raise AttributeError
  | ObjectColumn objects =>
      match infer_dtype objects with
      | Istring | Iempty | Imixed | Imixed_integer => Ok objects
      | _ => Raise AttributeError
      end
  end.

(** [s.str.len()]: the length of a string, NaN for a null and for a value
    on which [len] raises [TypeError]. *)
Definition str_len_value (x : value) : option Z :=
  match x with
  | PyStr s => Some (Z.of_nat (String.length s))
  | _ => None
  end.

(** The dtype of the Series [s.str.len()] returns.  pandas maps [len]
    over the values that are not null and converts what it gets: to int64
    when every value is a string (and for the empty column), to float64,
    with NaN for a null and for a value [len] fails on, when some value
    is not a string.  When every value is null nothing is mapped or
    converted, and the nulls come back in an object Series. *)
Inductive lengths_dtype : Type :=
| Int64Lengths
| Float64Lengths
| ObjectLengths.

Definition str_len_dtype (objects : list value) : lengths_dtype :=
  if forallb is_str objects then Int64Lengths
  else if forallb pd_isna objects then ObjectLengths
  else Float64Lengths.

Definition str_len (data : column)
  : except (lengths_dtype * Series (option Z)) :=
  objects <- str_accessor data ;;
  Ok (str_len_dtype objects, map str_len_value objects).

(** Python's [x >= z] and [x <= z] for an int [z]. *)
Definition py_ge (x : value) (z : Z) : except bool :=
  match x with
  | PyInt a => Ok (z <=? a)
  | PyFloat f =>
      Ok (match Float64.compare_Z f z with
          | Some Gt | Some Eq => true
          | _ => false
          end)
  | PyStr _ => Raise TypeError
  | PyNone => Raise TypeError
  end.

Definition py_le (x : value) (z : Z) : except bool :=
  match x with
  | PyInt a => Ok (a <=? z)
  | PyFloat f =>
      Ok (match Float64.compare_Z f z with
          | Some Lt | Some Eq => true
          | _ => false
          end)
  | PyStr _ => Raise TypeError
  | PyNone => Raise TypeError
  end.

(** Python's [float(z)]: [OverflowError] when [z] rounds past the largest
    float. *)
Definition py_float_of_int (z : Z) : except float :=
  let f := Float64.of_Z z in
  if is_infinity f then Raise OverflowError else Ok f.

(** The booleans of [lengths <= n]: NaN, like a null, compares false. *)
Definition le_values (s : Series (option Z)) (n : Z) : Series bool :=
  map (fun v => match v with
                | Some k => k <=? n
                | None => false
                end) s.

(** [lengths <= n] for an int [n].  int64 lengths are compared with [n]
    exactly, whatever its size, and the nulls of an object Series compare
    false.  Against float64 lengths NumPy first converts [n] to float64,
    which raises [OverflowError] when [n] is beyond the floats.  (A length
    is exact in float64 and the conversion of [n] is monotone, so the
    float comparison gives the boolean of the integer comparison.) *)
Definition lengths_le (s : lengths_dtype * Series (option Z)) (n : Z)
  : except (Series bool) :=
  match fst s with
  | Float64Lengths =>
      _ <- py_float_of_int n ;;
      Ok (le_values (snd s) n)
  | Int64Lengths | ObjectLengths => Ok (le_values (snd s) n)
  end.

(** [data >= z] and [data <= z].  On an object column a null entry gives
    [False] and any other is compared by Python.  On a float64 column
    NumPy converts [z] to float64 and compares floats; NaN compares
    false. *)
Definition column_ge (data : column) (z : Z) : except (Series bool) :=
  match data with
  | ObjectColumn objects =>
      mapM (fun x => if pd_isna x then Ok false else py_ge x z) objects
  | Float64Column floats =>
      bound <- py_float_of_int z ;;
      Ok (map (fun f => (bound <=? f)%float) floats)
  end.

Definition column_le (data : column) (z : Z) : except (Series bool) :=
  match data with
  | ObjectColumn objects =>
      mapM (fun x => if pd_isna x then Ok false else py_le x z) objects
  | Float64Column floats =>
      bound <- py_float_of_int z ;;
      Ok (map (fun f => (f <=? bound)%float) floats)
  end.

(** [data.astype('float64')].  On an object column a string that does not
    spell a number raises [ValueError]; text that does would be parsed,
    but no column with a string reaches this call in
    [validate_bigint_detailed] (lemma [column_ge_no_str]). *)
Definition astype_float64_value (x : value) : except float :=
  match x with
  | PyNone => Ok nan
  | PyFloat f => Ok f
  | PyInt z => py_float_of_int z
  | PyStr _ => Raise ValueError
  end.

Definition astype_float64 (data : column) : except (Series float) :=
  match data with
  | ObjectColumn objects => mapM astype_float64_value objects
  | Float64Column floats => Ok floats
  end.

(** [s.apply(f)] *)
Definition apply {A B : Type} (f : A -> B) (s : Series A) : Series B :=
  map f s.

(** ** The notebook's functions *)

(** The dictionary [check_completeness] returns. *)
Record completeness_result : Type := {
  c_total_values : Z;
  c_missing_values : Z;
  c_present_values : Z;
  c_completeness_rate : pynum
}.

(** The dictionary the two validity checks return. *)
Record validity_result : Type := {
  total_values : Z;
  missing_values : Z;
  valid_values : Z;
  invalid_values : Z;
  validity_rate : pynum;
  completeness_rate : pynum
}.

(** [round(x, 2)] on what a guarded rate expression gives: NumPy's rounding
    on an [np.float64], the int itself on the int [0]. *)
Definition round2 (x : pynum) : pynum :=
  match x with
  | PyI z => PyI z
  | PyF f => PyF (np_round f 2)
  end.

Definition check_completeness (data : column) : completeness_result :=
  let missing_count := sum (isna data) in
  let total_count := len data in
  let present_count := total_count - missing_count in
  let completeness_rate :=
    if total_count >? 0
    then PyF (np_true_divide present_count total_count * 100)%float
    else PyI 0 in
  {| c_total_values := total_count;
     c_missing_values := missing_count;
     c_present_values := present_count;
     c_completeness_rate := round2 completeness_rate |}.

(** The dictionary both validity checks build from their counts. *)
Definition validity_dict (total missing_count valid_count invalid_count : Z)
  : validity_result :=
  {| total_values := total;
     missing_values := missing_count;
     valid_values := valid_count;
     invalid_values := invalid_count;
     validity_rate :=
       if total - missing_count >? 0
       then PyF (np_round
                   (np_true_divide valid_count (total - missing_count) * 100)
                   2)
       else PyI 0;
     completeness_rate :=
       PyF (np_round
              (np_true_divide (total - missing_count) total * 100) 2) |}.

Definition validate_varchar_detailed (data : column) (max_length : Z)
  : except (validity_result * Series (option bool)) :=
  let is_missing := isna data in
  let missing_count := sum is_missing in
  string_lengths <- str_len data ;;
  is_valid_length <- lengths_le string_lengths max_length ;;
  let validity_results := where_nan is_valid_length (invert is_missing) in
  let valid_count := sum (eq_bool validity_results true) in
  let invalid_count := sum (eq_bool validity_results false) in
  Ok (validity_dict (len data) missing_count valid_count invalid_count,
      validity_results).

Definition INT64_MIN : Z := -9223372036854775808.
Definition INT64_MAX : Z := 9223372036854775807.

Definition validate_bigint_detailed (data : column) (min_val max_val : Z)
  : except (validity_result * Series (option bool)) :=
  let is_missing := isna data in
  let missing_count := sum is_missing in
  ge <- column_ge data min_val ;;
  le <- column_le data max_val ;;
  let is_within_range := and_ ge le in
  floats <- astype_float64 data ;;
  let is_integer :=
    apply (fun x => if negb (is_nan x) then Float64.is_integer x else true)
      floats in
  let is_valid := and_ is_within_range is_integer in
  let validity_results := where_nan is_valid (invert is_missing) in
  let valid_count := sum (eq_bool validity_results true) in
  let invalid_count := sum (eq_bool validity_results false) in
  Ok (validity_dict (len data) missing_count valid_count invalid_count,
      validity_results).

(** The call with the default bounds of the signature. *)
Definition validate_bigint_default (data : column)
  : except (validity_result * Series (option bool)) :=
  validate_bigint_detailed data INT64_MIN INT64_MAX.


Section OriginalStyle.

(** Python's [repr] of a float that is not NaN (its shortest decimal
    spelling) is left open: no property below depends on it. *)
Variable float_repr : float -> string.



End OriginalStyle.

(** ** Concrete columns *)

(** The two scenario columns.  Strings and [None] make an object column;
    so does a list of ints with one below zero and one above the int64
    maximum, which no integer dtype holds. *)
Definition scenario_strings : column :=
  ObjectColumn
    [PyStr "Short";
     PyStr "Exactly-fifty-chars-long-string-padded-to-50chars!!";
     PyNone].

Definition scenario_integers : column :=
  ObjectColumn
    [PyInt 42; PyInt (-100); PyInt 9223372036854775808; PyNone].

(** The notebook's test columns.  [test_integers] is an object column for
    the same reason as [scenario_integers]; [test_series],
    [[1, 2, None, 4, np.nan, 6, 7, None]], is a float64 column: pandas
    turns the ints into floats and [None] into NaN. *)
Definition test_strings : column :=
  ObjectColumn
    [PyStr "Short";
     PyStr "Medium length";
     PyStr "This is a very very very very long string that exceeds the fifty character limit";
     PyStr EmptyString;
     PyNone;
     PyFloat nan;
     PyStr "Exactly fifty characters - this should pass test";
     PyStr "This string is exactly fifty one characters long!"].

Definition test_integers : column :=
  ObjectColumn
    [PyInt 42; PyInt (-100); PyInt 9223372036854775807;
     PyInt (-9223372036854775808); PyInt 9223372036854775808; PyInt 0;
     PyNone; PyFloat nan; PyFloat 42; PyFloat 42.5].

Definition test_series : column :=
  Float64Column [1; 2; nan; 4; nan; 6; 7; nan]%float.

(** A float64 column that holds 2^63, one above the int64 maximum. *)
Definition above_int64_floats : column :=
  Float64Column [9223372036854775808; 42.5]%float.

(** ** Properties the claims are stated with *)









(** The columns that get the [.str] accessor (lemma [str_accessor_spec]):
    the object columns that hold a string or no present value. *)
Definition has_str_accessor (data : column) : bool :=
  match data with
  | ObjectColumn objects =>
      existsb is_str objects || forallb pd_isna objects
  | Float64Column _ => false
  end.

(** The columns whose lengths come back as float64: some value is not a
    string and some value is not null. *)
Definition has_float_lengths (data : column) : bool :=
  match str_len_dtype (cells data) with
  | Float64Lengths => true
  | _ => false
  end.


(** An int that [float] converts. *)
Definition fits_float64 (z : Z) : Prop :=
  is_infinity (Float64.of_Z z) = false.



(** The call did not raise. *)
Definition returns {A : Type} (r : except A) : Prop := exists a, r = Ok a.


(** [min_val <= value <= max_val], compared exactly. *)
Definition within_range (x : value) (min_val max_val : Z) : bool :=
  match x with
  | PyInt z => (min_val <=? z) && (z <=? max_val)
  | PyFloat f =>
      match Float64.compare_Z f min_val, Float64.compare_Z f max_val with
      | Some (Gt | Eq), Some (Lt | Eq) => true
      | _, _ => false
      end
  | _ => false
  end.

(** A number has no fractional component when its float64 form passes
    [is_integer]. *)
Definition no_fractional_component (x : value) : bool :=
  match x with
  | PyInt z =>
      let f := Float64.of_Z z in
      if negb (is_nan f) then Float64.is_integer f else true
  | PyFloat f => Float64.is_integer f
  | _ => false
  end.


(** ** The vectorized check the analysis recommends

    [is_valid_varchar_vectorized] of [data_quality_analysis.md]:

      valid_length = data.str.len() <= max_len
      return valid_length.fillna(True)

    The comparison gives a boolean Series, which holds no NaN. *)



(** ** What the checks say of one value *)

(** The verdict [validate_varchar_detailed] gives a value of a column it
    accepts (lemma [varchar_verdicts]). *)
Definition varchar_verdict_of (max_length : Z) (x : value) : option bool :=
  if pd_isna x then None
  else Some match str_len_value x with
            | Some k => k <=? max_length
            | None => false
            end.

(** The verdict [validate_bigint_detailed] gives a value of an object
    column it accepts (lemma [bigint_object_verdicts]). *)
Definition bigint_verdict_of (min_val max_val : Z) (x : value) : option bool :=
  if pd_isna x then None
  else Some (within_range x min_val max_val && no_fractional_component x).

(** An int that [float] refuses. *)
Definition unfit_int (x : value) : bool :=
  match x with
  | PyInt z => is_infinity (Float64.of_Z z)
  | _ => false
  end.

(** The result both validity checks build from a verdict Series over a
    column. *)
Definition result_of (data : column) (v : Series (option bool))
  : validity_result :=
  validity_dict (len data) (sum (isna data))
    (sum (eq_bool v true)) (sum (eq_bool v false)).

(** A verdict that stays [True]. *)
Definition stays_valid (c1 c2 : option bool) : Prop :=
  c1 = Some true -> c2 = Some true.

(** Two runs of a validity check, the second under a rule at least as
    wide: they raise the same exception, or both return, with the same
    total and missing count, no [True] verdict lost, no fewer valid and
    no more invalid values. *)
Definition widens (r1 r2 : except (validity_result * Series (option bool)))
  : Prop :=
  match r1, r2 with
  | Ok (res1, v1), Ok (res2, v2) =>
      total_values res1 = total_values res2 /\
      missing_values res1 = missing_values res2 /\
      valid_values res1 <= valid_values res2 /\
      invalid_values res2 <= invalid_values res1 /\
      Forall2 stays_valid v1 v2
  | Raise e1, Raise e2 => e1 = e2
  | _, _ => False
  end.

(** Two runs of a validity check, the second on the rows of the first in
    another order, position [n] of the second holding row [f n] of the
    first: the same exception, or the same dictionary and, at every
    position [n], the verdict the first run gave at [f n]. *)
Definition moved_with_rows (f : nat -> nat)
  (r1 r2 : except (validity_result * Series (option bool))) : Prop :=
  match r1, r2 with
  | Ok (res1, v1), Ok (res2, v2) =>
      res1 = res2 /\
      List.length v2 = List.length v1 /\
      forall n, (n < List.length v2)%nat -> nth_error v2 n = nth_error v1 (f n)
  | Raise e1, Raise e2 => e1 = e2
  | _, _ => False
  end.

(** The column of the first experiment, run with [max_length] 20 and
    100. *)
Definition my_test_strings : column :=
  ObjectColumn
    [PyStr "Short";
     PyStr "Medium length string here";
     PyStr "This is an extremely long string that will definitely exceed our length limit and should be flagged as invalid";
     PyStr EmptyString;
     PyNone;
     PyStr "Add your own test string here!"].


(** The counts of [r] are those of [r1] and [r2] added up. *)
Definition adds_up (r1 r2 r : validity_result) : Prop :=
  total_values r = total_values r1 + total_values r2 /\
  missing_values r = missing_values r1 + missing_values r2 /\
  valid_values r = valid_values r1 + valid_values r2 /\
  invalid_values r = invalid_values r1 + invalid_values r2.

(** The run on the rows [a ++ b] returns when the runs on [a] and on [b]
    do, with their verdicts one after the other and their counts added
    up. *)
Definition concatenates
  (check : list value -> except (validity_result * Series (option bool)))
  (a b : list value) : Prop :=
  forall r1 v1 r2 v2,
    check a = Ok (r1, v1) ->
    check b = Ok (r2, v2) ->
    exists r, check (a ++ b) = Ok (r, v1 ++ v2) /\ adds_up r1 r2 r.



(** ** Facts about the pandas operations *)

Lemma length_zip_with {A B C : Type} (f : A -> B -> C) (s : Series A) :
  forall t : Series B,
    List.length s = List.length t ->
    List.length (zip_with f s t) = List.length s.
Proof.
  induction s as [|a s IH]; intros [|b t] Hlen; simpl in *;
    try discriminate; auto.
Qed.

Lemma nth_error_zip_with {A B C : Type} (f : A -> B -> C) (s : Series A) :
  forall (t : Series B) (i : nat),
    nth_error (zip_with f s t) i =
    match nth_error s i, nth_error t i with
    | Some a, Some b => Some (f a b)
    | _, _ => None
    end.
Proof.
  induction s as [|a s IH]; intros [|b t] [|i]; simpl; auto;
    destruct (nth_error s i); reflexivity.
Qed.

Lemma mapM_length {A B : Type} (f : A -> except B) (l : list A) :
  forall l', mapM f l = Ok l' -> List.length l' = List.length l.
Proof.
  induction l as [|x l IH]; simpl; intros l' H.
  - inversion H; reflexivity.
  - destruct (f x) as [y|e]; simpl in H; try discriminate.
    destruct (mapM f l) as [ys|e]; simpl in H; try discriminate.
    inversion H; subst; simpl. f_equal. apply IH; reflexivity.
Qed.

Lemma mapM_nth_error {A B : Type} (f : A -> except B) (l : list A) :
  forall l' i x,
    mapM f l = Ok l' ->
    nth_error l i = Some x ->
    exists y, f x = Ok y /\ nth_error l' i = Some y.
Proof.
  induction l as [|a l IH]; simpl; intros l' i x H Hx.
  - destruct i; discriminate.
  - destruct (f a) as [y|e] eqn:Hy; simpl in H; try discriminate.
    destruct (mapM f l) as [ys|e]; simpl in H; try discriminate.
    inversion H; subst. destruct i as [|i]; simpl in *.
    + inversion Hx; subst. eauto.
    + eapply IH; eauto.
Qed.









(** ** When the [.str] accessor is granted *)

Lemma forallb_false_witness {A : Type} (p : A -> bool) (l : list A) (x : A) :
  In x l -> p x = false -> forallb p l = false.
Proof.
  intros Hin Hp. destruct (forallb p l) eqn:H; [|reflexivity].
  rewrite forallb_forall in H. rewrite (H x Hin) in Hp. discriminate.
Qed.

Lemma existsb_false_all {A : Type} (p : A -> bool) (l : list A) (x : A) :
  existsb p l = false -> In x l -> p x = false.
Proof.
  intros H Hin. destruct (p x) eqn:Hp; [|reflexivity].
  assert (existsb p l = true) by (apply existsb_exists; eauto). congruence.
Qed.

Lemma find_notna_none (l : list value) :
  find pd_notna l = None -> forallb pd_isna l = true.
Proof.
  intros H. apply forallb_forall. intros x Hin.
  pose proof (find_none _ _ H x Hin) as Hx. unfold pd_notna in Hx.
  destruct (pd_isna x); [reflexivity|discriminate].
Qed.

(** Among object columns the accessor is granted exactly to those that
    hold a string or no present value at all. *)
Lemma str_accessor_object (objects : list value) :
  str_accessor (ObjectColumn objects) =
  if existsb is_str objects || forallb pd_isna objects
  then Ok objects else Raise AttributeError.
Proof.
  unfold str_accessor, infer_dtype.
  destruct (find pd_notna objects) as [v|] eqn:Hf.
  - apply find_some in Hf as [Hin Hn]. unfold pd_notna in Hn.
    assert (Hnull : forallb pd_isna objects = false).
    { apply forallb_false_witness with v; [assumption|].
      destruct (pd_isna v); [discriminate|reflexivity]. }
    rewrite Hnull, orb_false_r.
    destruct (existsb is_str objects) eqn:Hs.
    + apply existsb_exists in Hs as [x [Hx Hstr]].
      destruct x; try discriminate.
      rewrite (forallb_false_witness (fun x => pd_isna x || is_int x)
                 objects (PyStr s) Hx eq_refl).
      rewrite (forallb_false_witness
                 (fun x => pd_isna x || is_int x || is_float x)
                 objects (PyStr s) Hx eq_refl).
      rewrite (forallb_false_witness is_float objects (PyStr s) Hx eq_refl).
      destruct v; try reflexivity;
        repeat match goal with
               | |- context [if ?b then _ else _] => destruct b
               end; reflexivity.
    + assert (Hnum : forallb (fun x => pd_isna x || is_int x || is_float x)
                       objects = true).
      { apply forallb_forall. intros x Hx.
        pose proof (existsb_false_all _ _ x Hs Hx) as Hx'.
        destruct x; simpl in *; try discriminate;
          rewrite ?orb_true_r; reflexivity. }
      rewrite Hnum.
      destruct v; simpl in Hn; try discriminate.
      * destruct (forallb is_float objects); reflexivity.
      * destruct (forallb (fun x => pd_isna x || is_int x) objects);
          reflexivity.
      * pose proof (existsb_false_all _ _ _ Hs Hin) as Hv. discriminate.
  - rewrite (find_notna_none _ Hf), orb_true_r. reflexivity.
Qed.

Lemma str_accessor_spec (data : column) :
  str_accessor data =
  if has_str_accessor data then Ok (cells data) else Raise AttributeError.
Proof.
  destruct data as [objects|floats]; [|reflexivity].
  apply str_accessor_object.
Qed.


(** ** What a returning validity check has computed *)

Lemma validate_varchar_detailed_spec (data : column) (max_length : Z) :
  validate_varchar_detailed data max_length =
  if has_str_accessor data
  then
    if has_float_lengths data && is_infinity (Float64.of_Z max_length)
    then Raise OverflowError
    else
      let v := where_nan (le_values (map str_len_value (cells data)) max_length)
                 (invert (isna data)) in
      Ok (validity_dict (len data) (sum (isna data))
            (sum (eq_bool v true)) (sum (eq_bool v false)), v)
  else Raise AttributeError.
Proof.
  unfold validate_varchar_detailed, str_len. rewrite str_accessor_spec.
  destruct (has_str_accessor data) eqn:Hacc; [|reflexivity].
  cbn [bind]. unfold lengths_le, has_float_lengths, py_float_of_int.
  cbn [fst snd].
  destruct (str_len_dtype (cells data)); cbn [andb bind]; try reflexivity.
  destruct (is_infinity (Float64.of_Z max_length)); reflexivity.
Qed.

Lemma validate_varchar_detailed_Ok (data : column) (max_length : Z)
  (res : validity_result) (v : Series (option bool)) :
  validate_varchar_detailed data max_length = Ok (res, v) ->
  v = where_nan (le_values (map str_len_value (cells data)) max_length)
        (invert (isna data)) /\
  res = validity_dict (len data) (sum (isna data))
          (sum (eq_bool v true)) (sum (eq_bool v false)).
Proof.
  rewrite validate_varchar_detailed_spec.
  destruct (has_str_accessor data); [|discriminate].
  destruct (has_float_lengths data && is_infinity (Float64.of_Z max_length));
    [discriminate|].
  intros H. inversion H; subst. split; reflexivity.
Qed.

Lemma validate_bigint_detailed_Ok (data : column) (min_val max_val : Z)
  (res : validity_result) (v : Series (option bool)) :
  validate_bigint_detailed data min_val max_val = Ok (res, v) ->
  exists ge le fl,
    column_ge data min_val = Ok ge /\
    column_le data max_val = Ok le /\
    astype_float64 data = Ok fl /\
    v = where_nan
          (and_ (and_ ge le)
             (apply (fun x => if negb (is_nan x)
                              then Float64.is_integer x else true) fl))
          (invert (isna data)) /\
    res = validity_dict (len data) (sum (isna data))
            (sum (eq_bool v true)) (sum (eq_bool v false)).
Proof.
  unfold validate_bigint_detailed.
  destruct (column_ge data min_val) as [ge|e]; simpl; [|discriminate].
  destruct (column_le data max_val) as [le|e]; simpl; [|discriminate].
  destruct (astype_float64 data) as [fl|e]; simpl; [|discriminate].
  intros H. inversion H; subst. exists ge, le, fl. repeat split; reflexivity.
Qed.

Lemma column_ge_length (data : column) (z : Z) (ge : Series bool) :
  column_ge data z = Ok ge -> List.length ge = List.length (cells data).
Proof.
  destruct data as [objects|floats]; simpl.
  - apply mapM_length.
  - destruct (py_float_of_int z); simpl; [|discriminate].
    intros H. inversion H. rewrite !length_map. reflexivity.
Qed.

Lemma column_le_length (data : column) (z : Z) (le : Series bool) :
  column_le data z = Ok le -> List.length le = List.length (cells data).
Proof.
  destruct data as [objects|floats]; simpl.
  - apply mapM_length.
  - destruct (py_float_of_int z); simpl; [|discriminate].
    intros H. inversion H. rewrite !length_map. reflexivity.
Qed.

Lemma astype_float64_length (data : column) (fl : Series float) :
  astype_float64 data = Ok fl -> List.length fl = List.length (cells data).
Proof.
  destruct data as [objects|floats]; simpl.
  - apply mapM_length.
  - intros H. inversion H. rewrite length_map. reflexivity.
Qed.

(** Whatever either check returns, its verdicts are [where] applied to a
    candidate column as long as the input. *)
Lemma validity_check_shape (data : column) (max_length min_val max_val : Z)
  (res : validity_result) (v : Series (option bool)) :
  validate_varchar_detailed data max_length = Ok (res, v) \/
  validate_bigint_detailed data min_val max_val = Ok (res, v) ->
  exists valid : Series bool,
    List.length valid = List.length (cells data) /\
    v = where_nan valid (invert (isna data)) /\
    res = validity_dict (len data) (sum (isna data))
            (sum (eq_bool v true)) (sum (eq_bool v false)).
Proof.
  intros [H|H].
  - apply validate_varchar_detailed_Ok in H as [Hv Hres].
    eexists. split; [|split; [exact Hv|exact Hres]].
    unfold le_values. rewrite !length_map. reflexivity.
  - apply validate_bigint_detailed_Ok in H
      as (ge & le & fl & Hge & Hle & Hfl & Hv & Hres).
    eexists. split; [|split; [exact Hv|exact Hres]].
    apply column_ge_length in Hge. apply column_le_length in Hle.
    apply astype_float64_length in Hfl.
    unfold and_, apply.
    rewrite length_zip_with; rewrite length_zip_with;
      rewrite ?length_map; congruence.
Qed.

(** ** The checks return on the columns they are documented for *)




(** ** Orthogonality of missingness and validity *)



(** ** The counts *)



(** ** The rates *)








(** The rate the formula gives on [scenario_integers], 2 valid of 3
    present, is the float nearest 66.67. *)
Example validity_rate_two_thirds :
  np_round (np_true_divide 2 3 * 100) 2 = (6667 / 100)%float.
Proof. vm_compute. reflexivity. Qed.



(** The notebook's test column [[1, 2, None, 4, np.nan, 6, 7, None]]. *)
Example check_completeness_test_series :
  check_completeness test_series =
  {| c_total_values := 8; c_missing_values := 3; c_present_values := 5;
     c_completeness_rate := PyF 62.5 |}.
Proof. vm_compute. reflexivity. Qed.

(** The notebook's test column of strings, with [max_length = 50]: only
    the third string is longer. *)
Example validate_varchar_detailed_test_strings :
  validate_varchar_detailed test_strings 50 =
  Ok (validity_dict 8 2 5 1,
      [Some true; Some true; Some false; Some true; None; None;
       Some true; Some true]).
Proof. vm_compute. reflexivity. Qed.

(** The notebook's test column of integers, with the default bounds:
    9223372036854775808 and 42.5 are invalid. *)
Example validate_bigint_detailed_test_integers :
  validate_bigint_default test_integers =
  Ok (validity_dict 10 2 6 2,
      [Some true; Some true; Some true; Some true; Some false;
       Some true; None; None; Some true; Some false]).
Proof. vm_compute. reflexivity. Qed.

(** ** Empty columns *)

(** C5.  On an empty column no check raises a division error,
    [check_completeness] reports the rate [0] and both validity checks
    report [validity_rate = 0]; but their [completeness_rate] is computed
    without the guard the other rates have, as [0 / 0], and is NaN. *)
Theorem empty_column_rates (max_length min_val max_val : Z) :
  let empty_result :=
    {| total_values := 0; missing_values := 0;
       valid_values := 0; invalid_values := 0;
       validity_rate := PyI 0; completeness_rate := PyF nan |} in
  c_completeness_rate (check_completeness (ObjectColumn [])) = PyI 0 /\
  c_completeness_rate (check_completeness (Float64Column [])) = PyI 0 /\
  validate_varchar_detailed (ObjectColumn []) max_length
  = Ok (empty_result, []) /\
  validate_bigint_detailed (ObjectColumn []) min_val max_val
  = Ok (empty_result, []) /\
  validate_bigint_default (Float64Column []) = Ok (empty_result, []) /\
  np_round (np_true_divide (0 - 0) 0 * 100) 2 = nan.
Proof. cbv zeta. repeat split. Qed.

(** ** String columns *)

Lemma nth_error_where_nan_isna (data : column) (valid : Series bool)
  (i : nat) (x : value) (b : bool) :
  nth_error (cells data) i = Some x ->
  nth_error valid i = Some b ->
  nth_error (where_nan valid (invert (isna data))) i =
  Some (if pd_isna x then None else Some b).
Proof.
  intros Hx Hb. unfold where_nan, invert, isna.
  rewrite nth_error_zip_with, Hb, !nth_error_map, Hx. simpl.
  destruct (pd_isna x); reflexivity.
Qed.

(** What [validate_varchar_detailed] says of each position when it
    returns. *)
Lemma varchar_verdict (data : column) (max_length : Z)
  (res : validity_result) (v : Series (option bool)) (i : nat) (x : value) :
  validate_varchar_detailed data max_length = Ok (res, v) ->
  nth_error (cells data) i = Some x ->
  nth_error v i =
  Some (if pd_isna x then None
        else Some match str_len_value x with
                  | Some k => k <=? max_length
                  | None => false
                  end).
Proof.
  intros H Hx. apply validate_varchar_detailed_Ok in H as [Hv _]. subst v.
  apply nth_error_where_nan_isna; [assumption|].
  unfold le_values. rewrite !nth_error_map, Hx. reflexivity.
Qed.

(** C6, as the code has it.  In a column [validate_varchar_detailed]
    accepts, a string is valid exactly when its length is at most
    [max_length] (the function takes no pattern); on the column
    [["Short", "Exactly-fifty-chars-long-string-padded-to-50chars!!", None]]
    with [max_length = 50] it reports total 3, missing 1, valid 1,
    invalid 1 and the validity rate 50.0: the second string has 51
    characters. *)
Theorem varchar_valid_iff_length :
  (forall (data : column) (max_length : Z) (res : validity_result)
          (v : Series (option bool)) (i : nat) (s : string),
      validate_varchar_detailed data max_length = Ok (res, v) ->
      nth_error (cells data) i = Some (PyStr s) ->
      exists b, nth_error v i = Some (Some b) /\
                (b = true <-> Z.of_nat (String.length s) <= max_length)) /\
  String.length "Exactly-fifty-chars-long-string-padded-to-50chars!!"%string
  = 51%nat /\
  validate_varchar_detailed scenario_strings 50 =
  Ok ({| total_values := 3; missing_values := 1;
         valid_values := 1; invalid_values := 1;
         validity_rate := PyF 50;
         completeness_rate := completeness_rate (validity_dict 3 1 1 1) |},
      [Some true; Some false; None]).
Proof.
  split; [|split; [reflexivity|vm_compute; reflexivity]].
  intros data max_length res v i s H Hx.
  rewrite (varchar_verdict _ _ _ _ _ _ H Hx). cbn [pd_isna str_len_value].
  eexists. split; [reflexivity|]. apply Z.leb_le.
Qed.

Lemma varchar_valid_iff_length_witness :
  exists b, nth_error [Some true; Some false; None] 1 = Some (Some b) /\
            (b = true <->
             Z.of_nat (String.length
               "Exactly-fifty-chars-long-string-padded-to-50chars!!"%string)
             <= 50).
Proof.
  apply (proj1 varchar_valid_iff_length scenario_strings 50
           (validity_dict 3 1 1 1) [Some true; Some false; None] 1%nat
           "Exactly-fifty-chars-long-string-padded-to-50chars!!"%string).
  - vm_compute. reflexivity.
  - reflexivity.
Defined.

(** C6 as the claim states it has valid 2, invalid 0 and the rate 100.0;
    the code gives valid 1, invalid 1 and the rate 50.0. *)
Lemma varchar_scenario_counts :
  exists res v,
    validate_varchar_detailed scenario_strings 50 = Ok (res, v) /\
    total_values res = 3 /\ missing_values res = 1 /\
    valid_values res = 1 /\ invalid_values res = 1 /\
    validity_rate res = PyF 50 /\
    (valid_values res =? 2) = false /\
    (invalid_values res =? 0) = false /\
    validity_rate res <> PyF 100.
Proof.
  eexists _, _. split; [vm_compute; reflexivity|].
  repeat split. cbn [validity_rate]. intros H.
  apply (f_equal (fun r => match r with
                           | PyF f => PrimFloat.eqb f 100
                           | PyI _ => true
                           end)) in H.
  vm_compute in H. discriminate.
Qed.

(** ** Integer columns *)

(** No object column that holds a string gets past the range comparison. *)
Lemma column_ge_no_str (objects : list value) (z : Z) (ge : Series bool) :
  column_ge (ObjectColumn objects) z = Ok ge ->
  existsb is_str objects = false.
Proof.
  intros H. destruct (existsb is_str objects) eqn:Hs; [|reflexivity].
  apply existsb_exists in Hs as [x [Hin Hx]].
  destruct x; try discriminate.
  apply In_nth_error in Hin as [i Hi].
  destruct (mapM_nth_error _ _ _ _ _ H Hi) as [y [Hy _]].
  discriminate.
Qed.

(** What [validate_bigint_detailed] says of a present value of an object
    column when it returns: the range is checked exactly. *)
Lemma bigint_verdict_object (objects : list value) (min_val max_val : Z)
  (res : validity_result) (v : Series (option bool)) (i : nat) (x : value) :
  validate_bigint_detailed (ObjectColumn objects) min_val max_val
  = Ok (res, v) ->
  nth_error objects i = Some x ->
  pd_isna x = false ->
  nth_error v i =
  Some (Some (within_range x min_val max_val && no_fractional_component x)).
Proof.
  intros H Hx Hpresent.
  apply validate_bigint_detailed_Ok in H
    as (ge & le & fl & Hge & Hle & Hfl & Hv & _).
  destruct (mapM_nth_error _ _ _ _ _ Hge Hx) as [g [Hg Hgi]].
  destruct (mapM_nth_error _ _ _ _ _ Hle Hx) as [l [Hl Hli]].
  destruct (mapM_nth_error _ _ _ _ _ Hfl Hx) as [f [Hf Hfi]].
  rewrite Hpresent in Hg, Hl. subst v.
  erewrite nth_error_where_nan_isna; [rewrite Hpresent|exact Hx|].
  2:{ unfold and_, apply.
      rewrite !nth_error_zip_with, Hgi, Hli, nth_error_map, Hfi.
      reflexivity. }
  do 2 f_equal.
  destruct x as [|f0|z|s]; simpl in Hpresent, Hg, Hl, Hf; try discriminate.
  - inversion Hg; inversion Hl; inversion Hf; subst.
    cbn [within_range no_fractional_component].
    rewrite Hpresent. cbn [negb]. f_equal.
    destruct (Float64.compare_Z f min_val) as [[]|];
      destruct (Float64.compare_Z f max_val) as [[]|]; reflexivity.
  - inversion Hg; inversion Hl; subst.
    unfold py_float_of_int in Hf.
    destruct (is_infinity (Float64.of_Z z)); [discriminate|].
    inversion Hf; subst. reflexivity.
Qed.

(** The same for a float64 column: the range is checked in float64,
    against the bounds as floats. *)
Lemma bigint_verdict_float64 (floats : list float) (min_val max_val : Z)
  (res : validity_result) (v : Series (option bool)) (i : nat) (f : float) :
  validate_bigint_detailed (Float64Column floats) min_val max_val
  = Ok (res, v) ->
  nth_error floats i = Some f ->
  is_nan f = false ->
  nth_error v i =
  Some (Some ((Float64.of_Z min_val <=? f)%float
              && (f <=? Float64.of_Z max_val)%float
              && Float64.is_integer f)).
Proof.
  intros H Hf Hpresent.
  apply validate_bigint_detailed_Ok in H
    as (ge & le & fl & Hge & Hle & Hfl & Hv & _).
  cbn [column_ge column_le astype_float64] in Hge, Hle, Hfl.
  unfold py_float_of_int in Hge, Hle.
  destruct (is_infinity (Float64.of_Z min_val)); [discriminate|].
  destruct (is_infinity (Float64.of_Z max_val)); [discriminate|].
  cbn [bind] in Hge, Hle. inversion Hge; inversion Hle; inversion Hfl.
  subst ge le fl v.
  erewrite nth_error_where_nan_isna with (x := PyFloat f);
    [cbn [pd_isna]; rewrite Hpresent; reflexivity| |].
  - cbn [cells]. rewrite nth_error_map, Hf. reflexivity.
  - unfold and_, apply.
    rewrite !nth_error_zip_with, !nth_error_map, Hf. cbn [option_map].
    rewrite Hpresent. reflexivity.
Qed.

(** C7.  On an object column, a present value is valid exactly when
    [min_val <= value <= max_val] and it has no fractional component
    ([42.0] is valid, [42.5] is not); the default bounds are the signed
    64-bit limits; on [[42, -100, 9223372036854775808, None]] with the
    default bounds the check reports missing 1, valid 2, invalid 1, the
    invalid value being 9223372036854775808.  On a float64 column the
    bounds are turned into floats first, the maximum 2^63 - 1 into 2^63,
    and the float 9223372036854775808.0, one above the maximum, is counted
    valid. *)
Theorem bigint_range_and_fraction :
  (forall (objects : list value) (min_val max_val : Z) (res : validity_result)
          (v : Series (option bool)) (i : nat) (x : value),
      validate_bigint_detailed (ObjectColumn objects) min_val max_val
      = Ok (res, v) ->
      nth_error objects i = Some x ->
      pd_isna x = false ->
      exists b, nth_error v i = Some (Some b) /\
                (b = true <->
                 within_range x min_val max_val = true /\
                 no_fractional_component x = true)) /\
  (forall z : Z, within_range (PyInt z) INT64_MIN INT64_MAX = true <->
                 - 2 ^ 63 <= z <= 2 ^ 63 - 1) /\
  (forall data : column,
      validate_bigint_default data =
      validate_bigint_detailed data (- 2 ^ 63) (2 ^ 63 - 1)) /\
  (exists res,
      validate_bigint_default (ObjectColumn [PyFloat 42; PyFloat 42.5]) =
      Ok (res, [Some true; Some false])) /\
  (exists res,
      validate_bigint_default (Float64Column [42; 42.5]%float) =
      Ok (res, [Some true; Some false])) /\
  validate_bigint_default scenario_integers =
  Ok ({| total_values := 4; missing_values := 1;
         valid_values := 2; invalid_values := 1;
         validity_rate := validity_rate (validity_dict 4 1 2 1);
         completeness_rate := PyF 75 |},
      [Some true; Some true; Some false; None]) /\
  within_range (PyFloat 9223372036854775808) INT64_MIN INT64_MAX = false /\
  Float64.of_Z INT64_MAX = 9223372036854775808%float /\
  validate_bigint_default above_int64_floats =
  Ok ({| total_values := 2; missing_values := 0;
         valid_values := 1; invalid_values := 1;
         validity_rate := PyF 50; completeness_rate := PyF 100 |},
      [Some true; Some false]).
Proof.
  repeat match goal with |- _ /\ _ => split end.
  - intros objects min_val max_val res v i x H Hx Hpresent.
    rewrite (bigint_verdict_object _ _ _ _ _ _ _ H Hx Hpresent).
    eexists. split; [reflexivity|]. apply andb_true_iff.
  - intros z. cbn [within_range]. rewrite andb_true_iff, !Z.leb_le.
    unfold INT64_MIN, INT64_MAX. lia.
  - intros data. reflexivity.
  - eexists. vm_compute. reflexivity.
  - eexists. vm_compute. reflexivity.
  - vm_compute. reflexivity.
  - vm_compute. reflexivity.
  - vm_compute. reflexivity.
  - vm_compute. reflexivity.
Qed.

(** ** Values that cannot be length-measured *)



(** ** The loop and the vectorized check *)





(** ** The checks value by value *)

Lemma where_nan_varchar (l : list value) (max_length : Z) :
  where_nan (le_values (map str_len_value l) max_length)
    (invert (map pd_isna l))
  = map (varchar_verdict_of max_length) l.
Proof.
  unfold where_nan, le_values, invert, varchar_verdict_of.
  induction l as [|x l IH]; simpl; [reflexivity|].
  rewrite IH. destruct (pd_isna x); reflexivity.
Qed.

(** [validate_varchar_detailed], whole: the accessor and the comparison
    decide whether it returns, and the verdicts are read off value by
    value. *)
Lemma varchar_verdicts (data : column) (max_length : Z) :
  validate_varchar_detailed data max_length =
  if has_str_accessor data
  then
    if has_float_lengths data && is_infinity (Float64.of_Z max_length)
    then Raise OverflowError
    else let v := map (varchar_verdict_of max_length) (cells data) in
         Ok (result_of data v, v)
  else Raise AttributeError.
Proof.
  rewrite validate_varchar_detailed_spec.
  destruct (has_str_accessor data); [|reflexivity].
  destruct (has_float_lengths data && is_infinity (Float64.of_Z max_length));
    [reflexivity|].
  cbv zeta. unfold isna, result_of. rewrite where_nan_varchar. reflexivity.
Qed.

(** The same when [max_length] is an int that [float] converts. *)
Lemma varchar_verdicts_fit (data : column) (max_length : Z) :
  fits_float64 max_length ->
  validate_varchar_detailed data max_length =
  if has_str_accessor data
  then let v := map (varchar_verdict_of max_length) (cells data) in
       Ok (result_of data v, v)
  else Raise AttributeError.
Proof.
  intros Hfit. rewrite varchar_verdicts. unfold fits_float64 in Hfit.
  rewrite Hfit, andb_false_r. reflexivity.
Qed.

Lemma column_ge_object (objects : list value) (z : Z) :
  column_ge (ObjectColumn objects) z =
  if existsb is_str objects then Raise TypeError
  else Ok (map (fun x => match py_ge x z with
                         | Ok b => negb (pd_isna x) && b
                         | Raise _ => false
                         end) objects).
Proof.
  unfold column_ge.
  induction objects as [|x l IH]; [reflexivity|].
  cbn [mapM existsb map]. rewrite IH.
  destruct x as [|f|a|s]; cbn [pd_isna is_str py_ge bind orb negb andb];
    try (destruct (existsb is_str l); reflexivity).
  destruct (is_nan f); cbn [bind negb andb];
    destruct (existsb is_str l); reflexivity.
Qed.

Lemma column_le_object (objects : list value) (z : Z) :
  column_le (ObjectColumn objects) z =
  if existsb is_str objects then Raise TypeError
  else Ok (map (fun x => match py_le x z with
                         | Ok b => negb (pd_isna x) && b
                         | Raise _ => false
                         end) objects).
Proof.
  unfold column_le.
  induction objects as [|x l IH]; [reflexivity|].
  cbn [mapM existsb map]. rewrite IH.
  destruct x as [|f|a|s]; cbn [pd_isna is_str py_le bind orb negb andb];
    try (destruct (existsb is_str l); reflexivity).
  destruct (is_nan f); cbn [bind negb andb];
    destruct (existsb is_str l); reflexivity.
Qed.

Lemma astype_float64_object (objects : list value) :
  existsb is_str objects = false ->
  astype_float64 (ObjectColumn objects) =
  if existsb unfit_int objects then Raise OverflowError
  else Ok (map (fun x => match x with
                         | PyFloat f => f
                         | PyInt z => Float64.of_Z z
                         | _ => nan
                         end) objects).
Proof.
  unfold astype_float64.
  induction objects as [|x l IH]; [reflexivity|].
  cbn [mapM existsb map]. intros Hs. apply orb_false_iff in Hs as [Hx Hl].
  rewrite (IH Hl).
  destruct x as [|f|z|s]; cbn [astype_float64_value unfit_int bind orb];
    try discriminate;
    try (destruct (existsb unfit_int l); reflexivity).
  unfold py_float_of_int.
  destruct (is_infinity (Float64.of_Z z)); cbn [bind orb]; [reflexivity|].
  destruct (existsb unfit_int l); reflexivity.
Qed.

Lemma bigint_object_verdicts (objects : list value) (min_val max_val : Z)
  (res : validity_result) (v : Series (option bool)) :
  validate_bigint_detailed (ObjectColumn objects) min_val max_val
  = Ok (res, v) ->
  v = map (bigint_verdict_of min_val max_val) objects /\
  res = result_of (ObjectColumn objects) v.
Proof.
  intros H.
  destruct (validity_check_shape (ObjectColumn objects) 0 min_val max_val
              res v (or_intror H)) as (valid & Hlen & Hv & Hres).
  split; [|exact Hres].
  apply nth_error_ext. intros i. rewrite nth_error_map.
  destruct (nth_error objects i) as [x|] eqn:Hx; cbn [option_map].
  - unfold bigint_verdict_of. destruct (pd_isna x) eqn:Hnull.
    + rewrite Hv.
      destruct (nth_error valid i) as [b|] eqn:Hb.
      * rewrite (nth_error_where_nan_isna (ObjectColumn objects) valid i x b
                   Hx Hb), Hnull. reflexivity.
      * apply nth_error_None in Hb. cbn [cells] in Hlen.
        assert (i < List.length objects)%nat
          by (apply nth_error_Some; congruence). lia.
    + apply (bigint_verdict_object _ _ _ _ _ _ _ H Hx Hnull).
  - apply nth_error_None. apply nth_error_None in Hx.
    rewrite Hv. unfold where_nan, invert, isna.
    rewrite length_zip_with; rewrite ?length_map; cbn [cells] in *; lia.
Qed.

(** [validate_bigint_detailed] on an object column, whole. *)
Lemma bigint_object_spec (objects : list value) (min_val max_val : Z) :
  validate_bigint_detailed (ObjectColumn objects) min_val max_val =
  if existsb is_str objects then Raise TypeError
  else if existsb unfit_int objects then Raise OverflowError
  else let v := map (bigint_verdict_of min_val max_val) objects in
       Ok (result_of (ObjectColumn objects) v, v).
Proof.
  destruct (validate_bigint_detailed (ObjectColumn objects) min_val max_val)
    as [[res v]|e] eqn:H.
  - destruct (bigint_object_verdicts _ _ _ _ _ H) as [Hv Hres].
    unfold validate_bigint_detailed in H.
    rewrite column_ge_object in H.
    destruct (existsb is_str objects) eqn:Hs; [discriminate|].
    rewrite column_le_object, Hs in H. cbn [bind] in H.
    rewrite (astype_float64_object _ Hs) in H.
    destruct (existsb unfit_int objects); [discriminate|].
    cbv zeta. subst res v. reflexivity.
  - unfold validate_bigint_detailed in H.
    rewrite column_ge_object in H.
    destruct (existsb is_str objects) eqn:Hs; [exact (eq_sym H)|].
    rewrite column_le_object, Hs in H. cbn [bind] in H.
    rewrite (astype_float64_object _ Hs) in H.
    destruct (existsb unfit_int objects); [exact (eq_sym H)|].
    discriminate.
Qed.

(** ** Widening a rule *)

Lemma widen_verdicts (f g : value -> option bool) (l : list value) :
  (forall x, f x = None <-> g x = None) ->
  (forall x, f x = Some true -> g x = Some true) ->
  sum (eq_bool (map f l) true) <= sum (eq_bool (map g l) true) /\
  sum (eq_bool (map g l) false) <= sum (eq_bool (map f l) false) /\
  Forall2 stays_valid (map f l) (map g l).
Proof.
  intros Hnone Htrue. unfold eq_bool.
  induction l as [|x l (IH1 & IH2 & IH3)]; cbn [map sum].
  - repeat split; try lia. constructor.
  - specialize (Hnone x). specialize (Htrue x).
    repeat split.
    + destruct (f x) as [[|]|]; destruct (g x) as [[|]|]; cbn [Bool.eqb];
        try lia; try (specialize (Htrue eq_refl); discriminate).
    + destruct (f x) as [[|]|]; destruct (g x) as [[|]|]; cbn [Bool.eqb];
        try lia;
        try (specialize (Htrue eq_refl); discriminate);
        try (destruct Hnone as [H1 H2];
             first [specialize (H1 eq_refl) | specialize (H2 eq_refl)];
             discriminate).
    + constructor; [exact Htrue|exact IH3].
Qed.








(** X1.  Raising [max_length] never costs a string column a valid value:
    with [max_length1 <= max_length2], both ints that [float] converts,
    the two runs of [validate_varchar_detailed] on one column raise the
    same exception or both return, with the same total and missing count,
    every [True] verdict kept, no fewer valid and no more invalid
    values. *)
Theorem varchar_wider_max_length (data : column) (max_length1 max_length2 : Z) :
  max_length1 <= max_length2 ->
  fits_float64 max_length1 ->
  fits_float64 max_length2 ->
  widens (validate_varchar_detailed data max_length1)
    (validate_varchar_detailed data max_length2).
Proof.
  intros Hle Hfit1 Hfit2.
  rewrite (varchar_verdicts_fit data max_length1 Hfit1).
  rewrite (varchar_verdicts_fit data max_length2 Hfit2).
  destruct (has_str_accessor data); [|reflexivity].
  cbv zeta. unfold widens, result_of.
  cbn [total_values missing_values valid_values invalid_values validity_dict].
  destruct (widen_verdicts (varchar_verdict_of max_length1)
              (varchar_verdict_of max_length2) (cells data))
    as (H1 & H2 & H3).
  - intros x. unfold varchar_verdict_of.
    destruct (pd_isna x); split; intros H; try reflexivity; discriminate.
  - intros x. unfold varchar_verdict_of.
    destruct (pd_isna x); [discriminate|].
    destruct (str_len_value x) as [k|]; [|discriminate].
    destruct (k <=? max_length1) eqn:Hk; [|discriminate].
    intros _. apply Z.leb_le in Hk.
    replace (k <=? max_length2) with true; [reflexivity|].
    symmetry. apply Z.leb_le. lia.
  - repeat split; assumption.
Qed.

(** The first experiment of the notebook: [max_length] 20, then 100. *)
Lemma varchar_wider_max_length_witness :
  widens (validate_varchar_detailed my_test_strings 20)
    (validate_varchar_detailed my_test_strings 100).
Proof.
  apply varchar_wider_max_length; [lia|reflexivity|reflexivity].
Defined.



(** ** What makes the integer check fail *)


(** ** The order of the rows *)

Lemma sum_Permutation (s t : Series bool) :
  Permutation s t -> sum s = sum t.
Proof.
  induction 1 as [|b s t _ IH|a b s|s t u _ IH1 _ IH2]; cbn [sum]; lia.
Qed.

Lemma existsb_Permutation {A : Type} (p : A -> bool) (l l' : list A) :
  Permutation l l' -> existsb p l = existsb p l'.
Proof.
  induction 1 as [|x l l' _ IH|x y l|l l' l'' _ IH1 _ IH2]; cbn [existsb];
    try congruence.
  destruct (p x), (p y); reflexivity.
Qed.

Lemma forallb_Permutation {A : Type} (p : A -> bool) (l l' : list A) :
  Permutation l l' -> forallb p l = forallb p l'.
Proof.
  induction 1 as [|x l l' _ IH|x y l|l l' l'' _ IH1 _ IH2]; cbn [forallb];
    try congruence.
  destruct (p x), (p y); reflexivity.
Qed.

Lemma result_of_Permutation (l1 l2 : list value)
  (f : value -> option bool) :
  Permutation l1 l2 ->
  result_of (ObjectColumn l1) (map f l1)
  = result_of (ObjectColumn l2) (map f l2).
Proof.
  intros Hp. unfold result_of, len, isna, eq_bool. cbn [cells].
  rewrite (Permutation_length Hp).
  rewrite (sum_Permutation _ _ (Permutation_map pd_isna Hp)).
  rewrite !map_map.
  rewrite (sum_Permutation _ _
             (Permutation_map
                (fun x => match f x with
                          | Some b' => Bool.eqb b' true
                          | None => false
                          end) Hp)).
  rewrite (sum_Permutation _ _
             (Permutation_map
                (fun x => match f x with
                          | Some b' => Bool.eqb b' false
                          | None => false
                          end) Hp)).
  reflexivity.
Qed.

Lemma verdicts_moved_with_rows (l1 l2 : list value) (f : nat -> nat)
  (g : value -> option bool) :
  Permutation l1 l2 ->
  (forall n, (n < List.length l2)%nat ->
             nth_error l2 n = nth_error l1 (f n)) ->
  moved_with_rows f
    (Ok (result_of (ObjectColumn l1) (map g l1), map g l1))
    (Ok (result_of (ObjectColumn l2) (map g l2), map g l2)).
Proof.
  intros Hp Hf. unfold moved_with_rows. split; [|split].
  - apply result_of_Permutation. assumption.
  - rewrite !length_map. symmetry. apply Permutation_length. assumption.
  - intros n Hn. rewrite length_map in Hn.
    rewrite !nth_error_map, (Hf n Hn). reflexivity.
Qed.

(** X4.  The order of the rows of an object column does not matter: when
    the rows are put in another order, position [n] getting the row that
    was at [f n], [check_completeness] returns the same dictionary, and
    each validity check raises the same exception or returns the same
    dictionary, rates included, with at every position [n] the verdict
    it gave at [f n]: each verdict goes with its row. *)
Theorem row_order_is_irrelevant (objects1 objects2 : list value)
  (f : nat -> nat) (max_length min_val max_val : Z) :
  Permutation objects1 objects2 ->
  (forall n, (n < List.length objects2)%nat ->
             nth_error objects2 n = nth_error objects1 (f n)) ->
  check_completeness (ObjectColumn objects1)
  = check_completeness (ObjectColumn objects2) /\
  moved_with_rows f
    (validate_varchar_detailed (ObjectColumn objects1) max_length)
    (validate_varchar_detailed (ObjectColumn objects2) max_length) /\
  moved_with_rows f
    (validate_bigint_detailed (ObjectColumn objects1) min_val max_val)
    (validate_bigint_detailed (ObjectColumn objects2) min_val max_val).
Proof.
  intros Hp Hf. split; [|split].
  - unfold check_completeness, len, isna. cbn [cells].
    rewrite (Permutation_length Hp).
    rewrite (sum_Permutation _ _ (Permutation_map pd_isna Hp)).
    reflexivity.
  - rewrite !varchar_verdicts.
    unfold has_float_lengths, str_len_dtype. cbn [has_str_accessor cells].
    rewrite (existsb_Permutation is_str _ _ Hp).
    rewrite (forallb_Permutation pd_isna _ _ Hp).
    rewrite (forallb_Permutation is_str _ _ Hp).
    destruct (existsb is_str objects2 || forallb pd_isna objects2);
      [|reflexivity].
    destruct ((if forallb is_str objects2 then false
               else if forallb pd_isna objects2 then false else true)
              && is_infinity (Float64.of_Z max_length)) eqn:Hraise.
    + destruct (forallb is_str objects2); [discriminate|].
      destruct (forallb pd_isna objects2); [discriminate|].
      cbn [andb] in Hraise |- *. rewrite Hraise. reflexivity.
    + destruct (forallb is_str objects2);
        [apply verdicts_moved_with_rows; assumption|].
      destruct (forallb pd_isna objects2);
        [apply verdicts_moved_with_rows; assumption|].
      cbn [andb] in Hraise |- *. rewrite Hraise.
      apply verdicts_moved_with_rows; assumption.
  - rewrite !bigint_object_spec.
    rewrite (existsb_Permutation is_str _ _ Hp).
    rewrite (existsb_Permutation unfit_int _ _ Hp).
    destruct (existsb is_str objects2); [reflexivity|].
    destruct (existsb unfit_int objects2); [reflexivity|].
    apply verdicts_moved_with_rows; assumption.
Qed.

(** The scenario column of integers with [None] moved to the front. *)
Lemma row_order_is_irrelevant_witness :
  let moved := [PyNone; PyInt 42; PyInt (-100); PyInt 9223372036854775808] in
  let f := fun n => ((n + 1) mod 4)%nat in
  check_completeness (ObjectColumn moved)
  = check_completeness scenario_integers /\
  moved_with_rows f
    (validate_varchar_detailed (ObjectColumn moved) 50)
    (validate_varchar_detailed scenario_integers 50) /\
  moved_with_rows f
    (validate_bigint_detailed (ObjectColumn moved) INT64_MIN INT64_MAX)
    (validate_bigint_detailed scenario_integers INT64_MIN INT64_MAX).
Proof.
  cbv zeta. unfold scenario_integers.
  apply row_order_is_irrelevant.
  - apply (Permutation_cons_append [PyInt 42; PyInt (-100);
                                    PyInt 9223372036854775808] PyNone).
  - intros n Hn. cbn [List.length] in Hn.
    destruct n as [|[|[|[|n]]]]; try reflexivity. lia.
Defined.

(** ** Columns put together *)

Lemma sum_app (s t : Series bool) : sum (s ++ t) = sum s + sum t.
Proof. induction s as [|b s IH]; cbn [app sum]; lia. Qed.

Lemma result_of_app (a b : list value) (f : value -> option bool) :
  adds_up (result_of (ObjectColumn a) (map f a))
    (result_of (ObjectColumn b) (map f b))
    (result_of (ObjectColumn (a ++ b)) (map f (a ++ b))).
Proof.
  unfold adds_up, result_of, len, isna, eq_bool.
  cbn [total_values missing_values valid_values invalid_values
       validity_dict cells].
  rewrite !map_app, !sum_app, length_app, Nat2Z.inj_add.
  repeat split; reflexivity.
Qed.

(** X5.  Rows put one after the other: the counts of
    [check_completeness] on [a ++ b] are the sums of its counts on [a]
    and on [b]; when a validity check returns on [a] and on [b] it
    returns on [a ++ b] (the string check when [max_length] is an int
    that [float] converts), with the verdicts of [a] followed by those
    of [b] and with the counts added up; and [validate_bigint_detailed]
    returns on [a ++ b] only if it returns on both. *)
Theorem checks_add_up_over_rows (a b : list value)
  (max_length min_val max_val : Z) :
  (c_total_values (check_completeness (ObjectColumn (a ++ b)))
   = c_total_values (check_completeness (ObjectColumn a))
     + c_total_values (check_completeness (ObjectColumn b)) /\
   c_missing_values (check_completeness (ObjectColumn (a ++ b)))
   = c_missing_values (check_completeness (ObjectColumn a))
     + c_missing_values (check_completeness (ObjectColumn b)) /\
   c_present_values (check_completeness (ObjectColumn (a ++ b)))
   = c_present_values (check_completeness (ObjectColumn a))
     + c_present_values (check_completeness (ObjectColumn b))) /\
  (fits_float64 max_length ->
   concatenates
     (fun rows => validate_varchar_detailed (ObjectColumn rows) max_length)
     a b) /\
  concatenates
    (fun rows => validate_bigint_detailed (ObjectColumn rows) min_val max_val)
    a b /\
  (returns (validate_bigint_detailed (ObjectColumn (a ++ b)) min_val max_val)
   <-> returns (validate_bigint_detailed (ObjectColumn a) min_val max_val) /\
       returns (validate_bigint_detailed (ObjectColumn b) min_val max_val)).
Proof.
  split; [|split; [|split]].
  - unfold check_completeness, len, isna.
    cbn [c_total_values c_missing_values c_present_values cells].
    rewrite !map_app, !sum_app, length_app, Nat2Z.inj_add.
    repeat split; lia.
  - intros Hfit r1 v1 r2 v2.
    rewrite !(fun data => varchar_verdicts_fit data max_length Hfit).
    cbn [has_str_accessor cells].
    rewrite existsb_app, forallb_app.
    destruct (existsb is_str a || forallb pd_isna a) eqn:Ha;
      [|discriminate].
    destruct (existsb is_str b || forallb pd_isna b) eqn:Hb;
      [|discriminate].
    cbv zeta. intros H1 H2.
    injection H1 as <- <-. injection H2 as <- <-.
    replace ((existsb is_str a || existsb is_str b)
             || (forallb pd_isna a && forallb pd_isna b)) with true.
    + eexists. split; [rewrite map_app; reflexivity|].
      rewrite <- map_app. apply result_of_app.
    + destruct (existsb is_str a), (existsb is_str b),
        (forallb pd_isna a), (forallb pd_isna b);
        try reflexivity; discriminate.
  - intros r1 v1 r2 v2. rewrite !bigint_object_spec, !existsb_app.
    destruct (existsb is_str a); [discriminate|].
    destruct (existsb unfit_int a); [discriminate|].
    destruct (existsb is_str b); [discriminate|].
    destruct (existsb unfit_int b); [discriminate|].
    cbv zeta. cbn [orb]. intros H1 H2.
    injection H1 as <- <-. injection H2 as <- <-.
    eexists. split; [rewrite map_app; reflexivity|].
    rewrite <- map_app. apply result_of_app.
  - unfold returns. rewrite !bigint_object_spec, !existsb_app.
    destruct (existsb is_str a), (existsb is_str b),
      (existsb unfit_int a), (existsb unfit_int b); cbv zeta; cbn [orb];
      split;
      try (intros [? ?]; discriminate);
      try (intros [[? ?] [? ?]]; discriminate);
      eauto.
Qed.

(** The strings of the first experiment followed by the rows of the
    notebook's test column, with [max_length = 50]. *)
Lemma checks_add_up_over_rows_witness :
  concatenates
    (fun rows => validate_varchar_detailed (ObjectColumn rows) 50)
    (cells my_test_strings) (cells test_strings).
Proof.
  apply (proj1 (proj2 (checks_add_up_over_rows (cells my_test_strings)
                         (cells test_strings) 50 0 0))).
  reflexivity.
Defined.

(** ** The two completeness rates *)

(** X6.  The [completeness_rate] a validity check puts in its dictionary
    is the one [check_completeness] gives for the same column exactly
    when the column is not empty. *)
Theorem completeness_rates_agree (data : column)
  (max_length min_val max_val : Z)
  (res : validity_result) (v : Series (option bool)) :
  validate_varchar_detailed data max_length = Ok (res, v) \/
  validate_bigint_detailed data min_val max_val = Ok (res, v) ->
  (completeness_rate res = c_completeness_rate (check_completeness data)
   <-> 0 < len data).
Proof.
  intros H.
  destruct (validity_check_shape data max_length min_val max_val res v H)
    as (valid & _ & _ & ->).
  unfold check_completeness.
  cbn [completeness_rate validity_dict c_completeness_rate].
  assert (0 <= len data) by (unfold len; lia).
  destruct (len data >? 0) eqn:Hlen; cbn [round2].
  - split; [intros _; lia|reflexivity].
  - split; [discriminate|]. intros Hpos.
    rewrite Z.gtb_ltb in Hlen. apply Z.ltb_ge in Hlen. lia.
Qed.

(** On the notebook's column of test strings. *)
Lemma completeness_rates_agree_witness :
  completeness_rate (validity_dict 8 2 5 1)
  = c_completeness_rate (check_completeness test_strings)
  <-> 0 < len test_strings.
Proof.
  apply (completeness_rates_agree test_strings 50 0 0
           (validity_dict 8 2 5 1)
           [Some true; Some true; Some false; Some true; None; None;
            Some true; Some true]).
  left. vm_compute. reflexivity.
Defined.

(** ** Rules that nothing meets *)






(** ** The one-line vectorized check *)





(** ** The loop and the check, counted *)





(** ** Infinite values *)

(** X10.  An infinite float is a present value that
    [validate_bigint_detailed] counts invalid whatever the bounds, on an
    object and on a float64 column: it is no NaN, and [is_integer]
    refuses it. *)
Theorem infinite_values_are_invalid (data : column) (min_val max_val : Z)
  (res : validity_result) (v : Series (option bool)) (i : nat) (f : float) :
  validate_bigint_detailed data min_val max_val = Ok (res, v) ->
  nth_error (cells data) i = Some (PyFloat f) ->
  f = infinity \/ f = neg_infinity ->
  nth_error v i = Some (Some false).
Proof.
  intros H Hi Hf.
  assert (Hnan : is_nan f = false) by (destruct Hf; subst f; reflexivity).
  assert (Hint : Float64.is_integer f = false)
    by (destruct Hf; subst f; reflexivity).
  destruct data as [objects|floats]; cbn [cells] in Hi.
  - apply bigint_object_verdicts in H as [-> _].
    rewrite nth_error_map, Hi. cbn [option_map].
    unfold bigint_verdict_of. cbn [pd_isna no_fractional_component].
    rewrite Hnan, Hint, andb_false_r. reflexivity.
  - rewrite nth_error_map in Hi.
    destruct (nth_error floats i) as [g|] eqn:Hg; [|discriminate].
    cbn [option_map] in Hi. injection Hi as ->.
    rewrite (bigint_verdict_float64 floats min_val max_val res v i f H Hg Hnan).
    rewrite Hint, andb_false_r. reflexivity.
Qed.

(** A float64 column that holds an infinity, with the default bounds. *)
Lemma infinite_values_are_invalid_witness :
  nth_error [Some false; Some true] 0 = Some (Some false).
Proof.
  apply (infinite_values_are_invalid (Float64Column [infinity; 1]%float)
           INT64_MIN INT64_MAX (validity_dict 2 0 1 1)
           [Some false; Some true] 0 infinity).
  - vm_compute. reflexivity.
  - reflexivity.
  - left. reflexivity.
Defined.
